(** * The artifact panel of papr-chat: version navigation and content persistence

    A shallow embedding of [src/components/artifact/artifact.tsx]
    ([PureArtifact]): the version navigator ([handleVersionChange],
    [getDocumentContentById], the effect that follows the fetched document
    list), the persistence bridge ([saveContent], [handleContentChange]) and
    the effect that reconciles the artifact's status with the chat stream.

    React state is a record ([View]); a handler is a computation in a small
    state monad over the state, the console and the network.  A handler reads
    the values of the render it was created in (its closure, the argument
    [r]) and writes through the setters.

    Further sections embed the comparator of the memoised panel, the inline
    preview ([document-preview.tsx]), the route guard ([auth.config.ts]) and
    the [execute] of the image editing tool ([edit-image.ts]). *)

From Stdlib Require Import ZArith String Lia.
From stdpp Require Import base list.

Local Open Scope string_scope.
Local Open Scope Z_scope.

(** ** Data model *)

(** [ArtifactKind]: the kinds of [artifactDefinitions]. *)
Inductive ArtifactKind : Type := text | image | sheet | memory.

(** [UIArtifact['status']]. *)
Inductive ArtifactStatus : Type := streaming | idle.

(** [useState<'edit' | 'diff'>]. *)
Inductive Mode : Type := edit | diff.

(** The argument of [handleVersionChange]. *)
Inductive VersionChange : Type := next | prev | toggle | latest.

(** [UseChatHelpers['status']] of the chat that owns the panel. *)
Module Chat.
Inductive status : Type := submitted | streaming | ready | error.
End Chat.

(** A persisted snapshot ([Document] of the database schema).  [content] is a
    nullable column: [None] is JavaScript's [null]. *)
Module Document.
Record t : Type := mk {
  id : string;
  createdAt : string;
  title : string;
  content : option string;
  kind : ArtifactKind;
  userId : string
}.
End Document.

Record BoundingBox : Type := {
  top : Z; left : Z; width : Z; height : Z
}.

(** [UIArtifact]; [content : string | null], [language?: string]. *)
Record UIArtifact : Type := {
  title : string;
  documentId : string;
  kind : ArtifactKind;
  content : option string;
  isVisible : bool;
  status : ArtifactStatus;
  boundingBox : BoundingBox;
  language : option string
}.

(** The state of one [PureArtifact] instance: the shared artifact of
    [useArtifact] and the four [useState] cells. *)
Record View : Type := {
  artifact : UIArtifact;
  mode : Mode;
  document : option Document.t;
  currentVersionIndex : Z;
  isContentDirty : bool
}.

(** What the handlers print: [console.log] and [console.error], by their
    message. *)
Inductive LogEntry : Type :=
  | Log (msg : string)
  | Error (msg : string).

(** The requests of [fetch]: the update ([method: 'POST'], with the JSON body
    [{title, content, kind}]) and the re-read (the default GET). *)
Inductive Request : Type :=
  | POST (url : string) (body_title body_content : string)
         (body_kind : ArtifactKind)
  | GET (url : string).

(** What the network would answer to the requests of one write: [ok] is
    [response.ok], the body [response.text()] or [response.json()]. *)
Record Response (A : Type) : Type := { ok : bool; body : A }.
Arguments ok {A} _.
Arguments body {A} _.

Record Network : Type := {
  postResponse : Response string;
  getResponse : Response (list Document.t)
}.

(** Everything a handler can change: the React state, the console, the
    requests sent so far and the payload held by the debounce timer. *)
Record World : Type := {
  view : View;
  console : list LogEntry;
  requests : list Request;
  timer : option string
}.

(** ** JavaScript values *)

(** [documents[index]] for a number that is an integer: [undefined] out of
    range, also below zero. *)
Definition at_index {A : Type} (l : list A) (index : Z) : option A :=
  if index <? 0 then None else l !! Z.to_nat index.

(** [doc?.content]: [undefined] and [null] are both [None]. *)
Definition content_of (doc : option Document.t) : option string :=
  doc ≫= Document.content.

(** Truthiness of a [string | null | undefined]: the empty string is falsy. *)
Definition truthy (s : option string) : bool :=
  match s with
  | Some s => negb (String.eqb s "")
  | None => false
  end.

(** [s || ''] *)
Definition or_empty (s : option string) : string :=
  match s with
  | Some s => if String.eqb s "" then "" else s
  | None => ""
  end.

(** [s ?? ''] *)
Definition nullish_empty (s : option string) : string :=
  match s with
  | Some s => s
  | None => ""
  end.

(** [a !== b] for a nullable string [a] and a string [b]. *)
Definition strict_neq (a : option string) (b : string) : bool :=
  match a with
  | Some a => negb (String.eqb a b)
  | None => true
  end.

(** [`/api/document?id=${documentId}`] *)
Definition document_url (documentId : string) : string :=
  String.append "/api/document?id=" documentId.

(** ** The handler monad *)

Definition M (A : Type) : Type := World → A * World.

#[global] Instance M_ret : MRet M := λ A (a : A) w, (a, w).

#[global] Instance M_bind : MBind M :=
  λ A B (k : A → M B) (m : M A) w, let (a, w') := m w in k a w'.

Definition console_log (msg : string) : M unit :=
  λ w, (tt, {| view := view w; console := console w ++ [Log msg];
               requests := requests w; timer := timer w |}).

Definition console_error (msg : string) : M unit :=
  λ w, (tt, {| view := view w; console := console w ++ [Error msg];
               requests := requests w; timer := timer w |}).

Definition modify_view (f : View → View) : M unit :=
  λ w, (tt, {| view := f (view w); console := console w;
               requests := requests w; timer := timer w |}).

(** [setArtifact(updater)]: the updater gets the current artifact. *)
Definition setArtifact (updater : UIArtifact → UIArtifact) : M unit :=
  modify_view (λ v,
    {| artifact := updater (artifact v); mode := mode v;
       document := document v;
       currentVersionIndex := currentVersionIndex v;
       isContentDirty := isContentDirty v |}).

Definition setMode (m : Mode) : M unit :=
  modify_view (λ v,
    {| artifact := artifact v; mode := m; document := document v;
       currentVersionIndex := currentVersionIndex v;
       isContentDirty := isContentDirty v |}).

Definition setDocument (d : option Document.t) : M unit :=
  modify_view (λ v,
    {| artifact := artifact v; mode := mode v; document := d;
       currentVersionIndex := currentVersionIndex v;
       isContentDirty := isContentDirty v |}).

Definition setCurrentVersionIndex (i : Z) : M unit :=
  modify_view (λ v,
    {| artifact := artifact v; mode := mode v; document := document v;
       currentVersionIndex := i;
       isContentDirty := isContentDirty v |}).

Definition setIsContentDirty (b : bool) : M unit :=
  modify_view (λ v,
    {| artifact := artifact v; mode := mode v; document := document v;
       currentVersionIndex := currentVersionIndex v;
       isContentDirty := b |}).

(** [fetch]: the request goes out and the scripted response comes back. *)
Definition fetch {A : Type} (rq : Request) (response : Response A)
  : M (Response A) :=
  λ w, (response, {| view := view w; console := console w;
                     requests := requests w ++ [rq]; timer := timer w |}).

Definition set_timer (payload : option string) : M unit :=
  λ w, (tt, {| view := view w; console := console w;
               requests := requests w; timer := payload |}).

(** The two object spreads of the file. *)
Definition with_status (s : ArtifactStatus) (a : UIArtifact) : UIArtifact :=
  {| title := title a; documentId := documentId a; kind := kind a;
     content := content a; isVisible := isVisible a; status := s;
     boundingBox := boundingBox a; language := language a |}.

Definition with_content (c : string) (a : UIArtifact) : UIArtifact :=
  {| title := title a; documentId := documentId a; kind := kind a;
     content := Some c; isVisible := isVisible a; status := status a;
     boundingBox := boundingBox a; language := language a |}.

(** A handler started in the render of [r], with a quiet console and network:
    the world it begins in, the world it leaves and the state it leaves. *)
Definition world_of (r : View) : World :=
  {| view := r; console := []; requests := []; timer := None |}.

Definition exec {A : Type} (m : M A) (w : World) : World := snd (m w).

(** ** The version navigator *)

(** The effect on [documents] (lines 137-159): a non-empty list selects its
    last snapshot and copies its content into the artifact. *)
Definition documentsEffect (documents : option (list Document.t)) : M unit :=
  match documents with
  | Some docs =>
      if 0 <? Z.of_nat (length docs) then
        match last docs with
        | Some mostRecentDocument =>
            setDocument (Some mostRecentDocument) ;;
            setCurrentVersionIndex (Z.of_nat (length docs) - 1) ;;
            console_log "[ARTIFACT COMPONENT] Setting content from document:" ;;
            setArtifact
              (with_content
                 (nullish_empty (Document.content mostRecentDocument)))
        | None => mret tt
        end
      else mret tt
  | None => mret tt
  end.

(** [getDocumentContentById] (lines 260-264). *)
Definition getDocumentContentById (documents : option (list Document.t))
    (index : Z) : string :=
  match documents with
  | None => ""
  | Some docs =>
      match at_index docs index with
      | None => ""
      | Some d => nullish_empty (Document.content d)
      end
  end.

(** The update of the artifact shared by the three moving commands:
    [{...current, content: doc.content || '', status: 'idle'}]. *)
Definition show_snapshot (doc : option Document.t) (current : UIArtifact)
  : UIArtifact :=
  with_status idle (with_content (or_empty (content_of doc)) current).

(** [handleVersionChange] (lines 266-381).  Nothing in the [try] block can
    throw (indexing an array and [?.] are total), so the [catch] is dead. *)
Definition handleVersionChange (documents : option (list Document.t))
    (r : View) (type : VersionChange) : M unit :=
  match documents with
  | None => console_log "[ARTIFACT] No documents available for version control"
  | Some docs =>
      console_log "[ARTIFACT] Version change requested:" ;;
      match type with
      | latest =>
          if Z.of_nat (length docs) =? 0 then
            console_log "[ARTIFACT] No versions available to navigate to"
          else
            let latestIndex := Z.of_nat (length docs) - 1 in
            console_log "[ARTIFACT] Setting to latest version:" ;;
            setCurrentVersionIndex latestIndex ;;
            setMode edit ;;
            let latestDoc := at_index docs latestIndex in
            if truthy (content_of latestDoc) then
              console_log "[ARTIFACT] Updating content with latest version" ;;
              setArtifact (show_snapshot latestDoc)
            else
              console_error "[ARTIFACT] Latest document has no content"
      | toggle =>
          let newMode := match mode r with edit => diff | diff => edit end in
          console_log "[ARTIFACT] Toggling mode from" ;;
          setMode newMode
      | prev =>
          if 0 <? currentVersionIndex r then
            let newIndex := currentVersionIndex r - 1 in
            console_log "[ARTIFACT] Moving to previous version:" ;;
            setCurrentVersionIndex newIndex ;;
            let selectedDoc := at_index docs newIndex in
            if truthy (content_of selectedDoc) then
              console_log "[ARTIFACT] Updated content with previous version" ;;
              setArtifact (show_snapshot selectedDoc)
            else
              console_error "[ARTIFACT] Selected document has no content"
          else
            console_log
              "[ARTIFACT] Already at oldest version, cannot go back further"
      | next =>
          if currentVersionIndex r <? Z.of_nat (length docs) - 1 then
            let newIndex := currentVersionIndex r + 1 in
            console_log "[ARTIFACT] Moving to next version:" ;;
            setCurrentVersionIndex newIndex ;;
            let selectedDoc := at_index docs newIndex in
            if truthy (content_of selectedDoc) then
              console_log "[ARTIFACT] Updated content with next version" ;;
              setArtifact (show_snapshot selectedDoc)
            else
              console_error "[ARTIFACT] Selected document has no content"
          else
            console_log
              "[ARTIFACT] Already at latest version, cannot go forward"
      end
  end.

(** A click: the handler of the render of [v] runs on the state [v]. *)
Definition navigate (documents : option (list Document.t))
    (type : VersionChange) (v : View) : View :=
  view (exec (handleVersionChange documents v type) (world_of v)).

(** A sequence of clicks, each handled in the render the one before left. *)
Definition navigate_all (documents : option (list Document.t))
    (types : list VersionChange) (v : View) : View :=
  foldl (λ v type, navigate documents type v) v types.

(** [isCurrentVersion] (lines 391-394). *)
Definition isCurrentVersion (documents : option (list Document.t))
    (v : View) : bool :=
  match documents with
  | Some docs =>
      if 0 <? Z.of_nat (length docs)
      then currentVersionIndex v =? Z.of_nat (length docs) - 1
      else true
  | None => true
  end.

(** ** The streaming safeguard *)

Definition chat_streaming (s : Chat.status) : bool :=
  match s with Chat.streaming => true | _ => false end.

Definition artifact_streaming (s : ArtifactStatus) : bool :=
  match s with streaming => true | idle => false end.

(** The effect on [status] and [artifact.status] (lines 110-118). *)
Definition chatStopEffect (chatStatus : Chat.status) (r : View) : M unit :=
  if negb (chat_streaming chatStatus)
     && artifact_streaming (status (artifact r))
  then
    console_log "[ARTIFACT] Chat stopped, updating artifact status to idle" ;;
    setArtifact (with_status idle)
  else mret tt.

(** One render: the effect of the render of [v] runs on the state [v]. *)
Definition reconcile (chatStatus : Chat.status) (v : View) : View :=
  view (exec (chatStopEffect chatStatus v) (world_of v)).

(** What can happen to the pair the effect depends on: the chat moves to
    another status, or someone (the stream handler, a navigation command)
    updates the shared artifact.  React runs the effect after the render
    that follows. *)
Inductive Signal : Type :=
  | ChatStatus (s : Chat.status)
  | ArtifactUpdate (updater : UIArtifact → UIArtifact).

Definition signal (st : Chat.status * View) (e : Signal)
  : Chat.status * View :=
  match e with
  | ChatStatus s => (s, reconcile s (snd st))
  | ArtifactUpdate updater =>
      (fst st,
       reconcile (fst st)
         (view (exec (setArtifact updater) (world_of (snd st)))))
  end.

(** ** The persistence bridge *)

(** The callback [handleContentChange] gives to [mutate] (lines 183-233):
    from the cached list to the list to cache. *)
Definition updateDocuments (r : View) (updatedContent : string)
    (net : Network) (currentDocuments : option (list Document.t))
  : M (option (list Document.t)) :=
  match currentDocuments with
  | None => mret None
  | Some docs =>
      match last docs with
      | None =>
          console_log "No current document found, creating new one" ;;
          setIsContentDirty false ;;
          mret (Some docs)
      | Some currentDocument =>
          if strict_neq (Document.content currentDocument) updatedContent then
            console_log "Content changed, sending update request" ;;
            response ← fetch
              (POST (document_url (documentId (artifact r)))
                    (title (artifact r)) updatedContent (kind (artifact r)))
              (postResponse net) ;
            if negb (ok response) then
              console_error
                (String.append "Failed to update document: " (body response)) ;;
              mret (Some docs)
            else
              setIsContentDirty false ;;
              console_log "Document updated successfully" ;;
              updatedResponse ← fetch
                (GET (document_url (documentId (artifact r))))
                (getResponse net) ;
              if ok updatedResponse then mret (Some (body updatedResponse))
              else mret (Some docs)
          else
            console_log "Content unchanged, skipping update" ;;
            mret (Some docs)
      end
  end.

(** [handleContentChange] (lines 168-238).  [cache] is the entry of the
    document's key in the SWR cache: [mutate] hands it to the callback and
    stores what the callback returns, which is the result here. *)
Definition handleContentChange (r : View) (updatedContent : string)
    (net : Network) (cache : option (list Document.t))
  : M (option (list Document.t)) :=
  if String.eqb (documentId (artifact r)) ""
     || String.eqb (documentId (artifact r)) "init"
  then
    console_log "Cannot update document: invalid artifact state" ;;
    mret cache
  else
    console_log "Handling content change:" ;;
    updateDocuments r updatedContent net cache.

(** [saveContent] (lines 245-258).  The debounced call leaves its payload
    with the timer; a later call replaces it. *)
Definition saveContent (r : View) (updatedContent : string) (debounce : bool)
    (net : Network) (cache : option (list Document.t))
  : M (option (list Document.t)) :=
  match document r with
  | Some d =>
      if strict_neq (Document.content d) updatedContent then
        setIsContentDirty true ;;
        if debounce then
          set_timer (Some updatedContent) ;;
          mret cache
        else handleContentChange r updatedContent net cache
      else mret cache
  | None => mret cache
  end.

(** The debounce timer of [useDebounceCallback(handleContentChange, 2000)]
    fires: the payload it holds goes to [handleContentChange]. *)
Definition debounceFires (r : View) (net : Network)
    (cache : option (list Document.t)) : M (option (list Document.t)) :=
  λ w, match timer w with
       | Some updatedContent =>
           (set_timer None ;; handleContentChange r updatedContent net cache) w
       | None => (cache, w)
       end.

(** The network writes among the requests. *)
Definition is_write (rq : Request) : bool :=
  match rq with POST _ _ _ _ => true | GET _ => false end.

Definition writes (rqs : list Request) : nat :=
  length (filter (λ rq, is_write rq = true) rqs).


(** ** Sample values *)

Definition snapshot (c : option string) : Document.t :=
  Document.mk "doc-1" "2025-01-01T00:00:00Z" "Essay" c text "user-1".

Definition sample_artifact (docId : string) (c : option string)
    (s : ArtifactStatus) : UIArtifact :=
  {| title := "Essay"; documentId := docId; kind := text; content := c;
     isVisible := true; status := s;
     boundingBox := {| top := 0; left := 0; width := 0; height := 0 |};
     language := None |}.

Definition sample_view (docId : string) (c : option string)
    (s : ArtifactStatus) (m : Mode) (cursor : Z) : View :=
  {| artifact := sample_artifact docId c s; mode := m; document := None;
     currentVersionIndex := cursor; isContentDirty := false |}.

Definition abc : list Document.t :=
  [snapshot (Some "a"); snapshot (Some "b"); snapshot (Some "c")].

(** ** Statements *)

(** The cursor points into the list. *)
Definition in_range (docs : list Document.t) (v : View) : Prop :=
  0 ≤ currentVersionIndex v ≤ Z.of_nat (length docs) - 1.

(** The state [v] with another cursor, mode or artifact. *)
Definition with_cursor (i : Z) (v : View) : View :=
  {| artifact := artifact v; mode := mode v; document := document v;
     currentVersionIndex := i; isContentDirty := isContentDirty v |}.

Definition with_mode (m : Mode) (v : View) : View :=
  {| artifact := artifact v; mode := m; document := document v;
     currentVersionIndex := currentVersionIndex v;
     isContentDirty := isContentDirty v |}.

Definition with_artifact (a : UIArtifact) (v : View) : View :=
  {| artifact := a; mode := mode v; document := document v;
     currentVersionIndex := currentVersionIndex v;
     isContentDirty := isContentDirty v |}.


Definition flip (m : Mode) : Mode :=
  match m with edit => diff | diff => edit end.

(** The index a command moves the cursor to, by the guards of
    [handleVersionChange]; [None] when the command does not move it. *)
Definition destination (docs : list Document.t) (v : View)
    (type : VersionChange) : option Z :=
  match type with
  | latest =>
      if Z.of_nat (length docs) =? 0 then None
      else Some (Z.of_nat (length docs) - 1)
  | toggle => None
  | prev =>
      if 0 <? currentVersionIndex v then Some (currentVersionIndex v - 1)
      else None
  | next =>
      if currentVersionIndex v <? Z.of_nat (length docs) - 1
      then Some (currentVersionIndex v + 1)
      else None
  end.

(** The snapshot [d] with [content: null]. *)
Definition without_content (d : Document.t) : Document.t :=
  Document.mk (Document.id d) (Document.createdAt d) (Document.title d)
    None (Document.kind d) (Document.userId d).

(** A list whose only snapshot has the empty string as content, and a panel
    that shows a draft. *)
Definition blank : list Document.t := [snapshot (Some "")].

Definition draft_view : View :=
  sample_view "doc-1" (Some "draft") idle diff 0.

(** A panel whose list is still absent, in edit mode. *)
Definition loading_view : View :=
  sample_view "doc-1" None idle edit (-1).

(** A server that refuses the update, and the panel and cache of an edit. *)
Definition refusing : Network :=
  {| postResponse := {| ok := false; body := "Unauthorized" |};
     getResponse := {| ok := true; body := [snapshot (Some "a")] |} |}.

(** A server that takes the update of content ["b"] and lists it. *)
Definition accepting : Network :=
  {| postResponse := {| ok := true; body := "{}" |};
     getResponse :=
       {| ok := true; body := [snapshot (Some "a"); snapshot (Some "b")] |} |}.

Definition editing_view : View :=
  sample_view "doc-1" (Some "a") idle edit 0.


(** The panel over time: the data-fetching cache delivers a list (and the
    effect on the list runs), or the user clicks a navigation control. *)
Inductive Event : Type :=
  | Fetched (documents : option (list Document.t))
  | Click (type : VersionChange).

Definition step (s : option (list Document.t) * View) (e : Event)
  : option (list Document.t) * View :=
  match e with
  | Fetched documents =>
      (documents, view (exec (documentsEffect documents) (world_of (snd s))))
  | Click type => (fst s, navigate (fst s) type (snd s))
  end.

(** The panel as it mounts: no list, [useState(-1)], [useState('edit')]. *)
Definition mounted (a : UIArtifact) : option (list Document.t) * View :=
  (None,
   {| artifact := a; mode := edit; document := None;
      currentVersionIndex := -1; isContentDirty := false |}).

(** ** What the panel shows *)

(** The [content] prop of the artifact's renderer (lines 623-627): the
    artifact's own content on the current version, the snapshot under the
    cursor otherwise. *)
Definition displayedContent (documents : option (list Document.t))
    (v : View) : option string :=
  if isCurrentVersion documents v then content (artifact v)
  else Some (getDocumentContentById documents (currentVersionIndex v)).


(** ** The comparator of [memo(PureArtifact, ...)] (lines 673-682) *)

Definition chat_status_eqb (a b : Chat.status) : bool :=
  match a, b with
  | Chat.submitted, Chat.submitted => true
  | Chat.streaming, Chat.streaming => true
  | Chat.ready, Chat.ready => true
  | Chat.error, Chat.error => true
  | _, _ => false
  end.

(** The props the comparator reads; votes is [Array<Vote> | undefined]. *)
Record ArtifactProps (Vote UIMessage : Type) : Type := {
  props_status : Chat.status;
  props_votes : option (list Vote);
  props_input : string;
  props_messages : list UIMessage;
  props_selectedModelId : string;
  props_selectedVisibilityType : string
}.
Arguments props_status {Vote UIMessage} _.
Arguments props_votes {Vote UIMessage} _.
Arguments props_input {Vote UIMessage} _.
Arguments props_messages {Vote UIMessage} _.
Arguments props_selectedModelId {Vote UIMessage} _.
Arguments props_selectedVisibilityType {Vote UIMessage} _.

(** The comparator.  [equal] is the deep equality of [fast-deep-equal]; it is
    used at two types, on two vote lists ([equal_votes]) and on the previous
    message array and the next array's length ([equal_array_number]). *)
Definition propsAreEqual {Vote UIMessage : Type}
    (equal_votes : option (list Vote) → option (list Vote) → bool)
    (equal_array_number : list UIMessage → Z → bool)
    (prevProps nextProps : ArtifactProps Vote UIMessage) : bool :=
  if negb (chat_status_eqb (props_status prevProps) (props_status nextProps))
  then false
  else if negb (equal_votes (props_votes prevProps) (props_votes nextProps))
  then false
  else if negb (String.eqb (props_input prevProps) (props_input nextProps))
  then false
  else if negb (equal_array_number (props_messages prevProps)
                  (Z.of_nat (length (props_messages nextProps))))
  then false
  else if negb (String.eqb (props_selectedModelId prevProps)
                  (props_selectedModelId nextProps))
  then false
  else if negb (String.eqb (props_selectedVisibilityType prevProps)
                  (props_selectedVisibilityType nextProps))
  then false
  else true.

(** ** The inline preview ([src/components/document/document-preview.tsx]) *)

Module Preview.

(** [mapDocumentKindToArtifactKind] (lines 25-33); the cast to
    [ArtifactKind] does nothing at run time, the kind stays a string. *)
Definition mapDocumentKindToArtifactKind (kind : string) : string :=
  if String.eqb kind "code" || String.eqb kind "github-code" then "text"
  else kind.

(** The string of an [ArtifactKind]. *)
Definition kind_name (k : ArtifactKind) : string :=
  match k with
  | text => "text"
  | image => "image"
  | sheet => "sheet"
  | memory => "memory"
  end.




(** A document row as the preview handles it: the kind is the database's
    string, [content] is nullable. *)
Module DocumentRow.
Record t : Type := mk {
  id : string;
  createdAt : string;
  title : string;
  content : option string;
  kind : string;
  userId : string;
  is_latest : bool;
  version : string
}.
End DocumentRow.

(** The [document] the preview shows (lines 97-113): the first fetched row,
    else a row made up from the artifact while it streams or has content,
    else nothing.  [now] is [new Date()]; [JSON.stringify(null)] is the
    string ["null"]. *)
Definition document (previewDocument : option DocumentRow.t) (a : UIArtifact)
    (now : string) : option DocumentRow.t :=
  match previewDocument with
  | Some d => Some d
  | None =>
      if artifact_streaming (status a) || truthy (content a)
      then
        Some {| DocumentRow.title := title a;
                DocumentRow.kind := kind_name (kind a);
                DocumentRow.content :=
                  Some match content a with
                       | Some c => c
                       | None => "null"
                       end;
                DocumentRow.id := documentId a;
                DocumentRow.createdAt := now;
                DocumentRow.userId := "noop";
                DocumentRow.is_latest := true;
                DocumentRow.version := "1" |}
      else None
  end.

End Preview.

(** ** The route guard ([src/app/(auth)/auth.config.ts]) *)

Module Auth.

(** What the [authorized] callback returns: [true], or a redirect to a path
    of the same site.  It has no [return false]. *)
Inductive Decision : Type :=
  | Allow
  | Redirect (path : string).

(** [authorized] (lines 14-39).  [isLoggedIn] is [!!auth?.user]. *)
Definition authorized (isLoggedIn : bool) (pathname : string) : Decision :=
  let isOnChat := String.prefix "/" pathname in
  let isOnRegister := String.prefix "/register" pathname in
  let isOnLogin := String.prefix "/login" pathname in
  let isOnLanding := String.prefix "/landing" pathname in
  if isLoggedIn && (isOnLogin || isOnRegister || isOnLanding) then
    Redirect "/"
  else if isOnRegister || isOnLogin || isOnLanding then Allow
  else if isOnChat then
    if isLoggedIn then Allow else Redirect "/landing"
  else if isLoggedIn then Redirect "/"
  else Allow.

(** The pages open to everyone. *)
Definition public (pathname : string) : bool :=
  String.prefix "/register" pathname || String.prefix "/login" pathname
  || String.prefix "/landing" pathname.

End Auth.

(** ** The image editing tool ([src/lib/ai/tools/edit-image.ts]) *)

Module EditImage.

(** [editType] of [editImageSchema]. *)
Inductive EditType : Type := modify | add | remove | replace | style_change.

(** [EditImageInput]; [context] is optional. *)
Module Input.
Record t : Type := mk {
  imageUrl : string;
  prompt : string;
  editType : EditType;
  preserveOriginal : bool;
  context : option string
}.
End Input.

(** [EditImageOutput]. *)
Module Output.
Record t : Type := mk {
  id : string;
  originalImageUrl : string;
  editedImageUrl : string;
  prompt : string;
  editType : EditType;
  preserveOriginal : bool;
  context : option string
}.
End Output.

(** What a [throw] carries: an [Error] with its message, or another value. *)
Inductive Thrown : Type :=
  | ErrorObject (message : string)
  | OtherValue.

Inductive Result (A : Type) : Type :=
  | Ok (a : A)
  | Throw (e : Thrown).
Arguments Ok {A} _.
Arguments Throw {A} _.

(** What [execute] reaches outside itself, in order. *)
Inductive Call : Type :=
  | CallGemini (imageBase64 prompt : string) (editType : EditType)
               (preserveOriginal : bool)
  | CallSaveImageToBlob (image userId prefix : string)
  | CallStreamWrite (content : Output.t)
  | CallConsoleError (msg : string).

(** The surroundings of one [execute]: [session?.user?.id], the id
    [generateUUID()] gives, what [editImageWithGemini] and [saveImageToBlob]
    answer, and [dataStream.write] when the stream has one. *)
Record Env : Type := {
  sessionUserId : option string;
  generateUUID : string;
  editImageWithGemini : string → string → EditType → bool → Result string;
  saveImageToBlob : string → string → string → Result string;
  write : option (Output.t → Result unit)
}.

Definition newline : string := String (Ascii.ascii_of_nat 10) "".

(** [`Failed to edit image: ${error instanceof Error ? error.message :
    'Unknown error'}`] *)
Definition failed (e : Thrown) : Thrown :=
  ErrorObject
    (String.append "Failed to edit image: "
       match e with
       | ErrorObject message => message
       | OtherValue => "Unknown error"
       end).

(** [execute] (lines 147-200): the result and the calls made. *)
Definition execute (env : Env) (input : Input.t)
  : Result Output.t * list Call :=
  let id := generateUUID env in
  if negb (truthy (sessionUserId env)) then
    (Throw (ErrorObject "User must be authenticated to edit images"), [])
  else
    let userId := nullish_empty (sessionUserId env) in
    let enhancedPrompt :=
      if truthy (Input.context input) then
        String.append (Input.prompt input)
          (String.append newline
             (String.append newline
                (String.append "Additional context: "
                   (nullish_empty (Input.context input)))))
      else Input.prompt input in
    let gemini :=
      CallGemini (Input.imageUrl input) enhancedPrompt
        (Input.editType input) (Input.preserveOriginal input) in
    match editImageWithGemini env (Input.imageUrl input) enhancedPrompt
            (Input.editType input) (Input.preserveOriginal input) with
    | Throw e =>
        (Throw (failed e), [gemini; CallConsoleError "Error editing image:"])
    | Ok editedImageBase64 =>
        let save := CallSaveImageToBlob editedImageBase64 userId "edited" in
        match saveImageToBlob env editedImageBase64 userId "edited" with
        | Throw e =>
            (Throw (failed e),
             [gemini; save; CallConsoleError "Error editing image:"])
        | Ok permanentEditedImageUrl =>
            let output :=
              Output.mk id (Input.imageUrl input) permanentEditedImageUrl
                (Input.prompt input) (Input.editType input)
                (Input.preserveOriginal input) (Input.context input) in
            match write env with
            | None => (Ok output, [gemini; save])
            | Some write =>
                match write output with
                | Ok _ => (Ok output, [gemini; save; CallStreamWrite output])
                | Throw e =>
                    (Throw (failed e),
                     [gemini; save; CallStreamWrite output;
                      CallConsoleError "Error editing image:"])
                end
            end
        end
    end.

Definition is_stream_write (c : Call) : bool :=
  match c with CallStreamWrite _ => true | _ => false end.

End EditImage.



(** Sample surroundings of the image tool: a signed-in user, an edit and a
    save that succeed, a stream that takes the event. *)
Definition signed_in : EditImage.Env :=
  {| EditImage.sessionUserId := Some "user-1";
     EditImage.generateUUID := "uuid-1";
     EditImage.editImageWithGemini :=
       λ _ _ _ _, EditImage.Ok "data:image/png;base64,AAAA";
     EditImage.saveImageToBlob :=
       λ _ _ _, EditImage.Ok "https://blob.example/edited.png";
     EditImage.write := Some (λ _, EditImage.Ok tt) |}.

Definition signed_out : EditImage.Env :=
  {| EditImage.sessionUserId := None;
     EditImage.generateUUID := "uuid-1";
     EditImage.editImageWithGemini :=
       λ _ _ _ _, EditImage.Ok "data:image/png;base64,AAAA";
     EditImage.saveImageToBlob :=
       λ _ _ _, EditImage.Ok "https://blob.example/edited.png";
     EditImage.write := Some (λ _, EditImage.Ok tt) |}.

Definition sample_input : EditImage.Input.t :=
  EditImage.Input.mk "https://img.example/cat.png" "add a hat"
    EditImage.add true (Some "a tabby cat").

(** Sample props of the panel. *)
Definition sample_props : ArtifactProps unit unit :=
  {| props_status := Chat.ready; props_votes := None; props_input := "";
     props_messages := [tt]; props_selectedModelId := "gpt-4.1";
     props_selectedVisibilityType := "private" |}.

(** ** Proof support *)

Ltac run :=
  unfold navigate, navigate_all, reconcile, exec, world_of,
    handleVersionChange, documentsEffect, chatStopEffect,
    saveContent, debounceFires, handleContentChange, updateDocuments,
    setArtifact, setMode, setDocument, setCurrentVersionIndex,
    setIsContentDirty, modify_view, console_log, console_error, fetch,
    set_timer, mbind, M_bind, mret, M_ret;
  cbn.

Lemma view_eta (v : View) :
  {| artifact := artifact v; mode := mode v; document := document v;
     currentVersionIndex := currentVersionIndex v;
     isContentDirty := isContentDirty v |} = v.
Proof. by destruct v. Qed.

Lemma at_index_last {A : Type} (l : list A) :
  l ≠ [] → at_index l (Z.of_nat (length l) - 1) = last l.
Proof.
  intros Hl. unfold at_index.
  destruct l as [|x l]; [done|].
  rewrite last_lookup. cbn [length].
  destruct (Z.ltb_spec (Z.of_nat (S (length l)) - 1) 0) as [H|H]; [lia|].
  f_equal. lia.
Qed.

Lemma navigate_prev (docs : list Document.t) (v : View) :
  navigate (Some docs) prev v =
    if 0 <? currentVersionIndex v then
      let doc := at_index docs (currentVersionIndex v - 1) in
      let v' := with_cursor (currentVersionIndex v - 1) v in
      if truthy (content_of doc)
      then with_artifact (show_snapshot doc (artifact v)) v'
      else v'
    else v.
Proof.
  run. destruct (0 <? currentVersionIndex v); cbn; [|done].
  by destruct (truthy _).
Qed.

Lemma navigate_next (docs : list Document.t) (v : View) :
  navigate (Some docs) next v =
    if currentVersionIndex v <? Z.of_nat (length docs) - 1 then
      let doc := at_index docs (currentVersionIndex v + 1) in
      let v' := with_cursor (currentVersionIndex v + 1) v in
      if truthy (content_of doc)
      then with_artifact (show_snapshot doc (artifact v)) v'
      else v'
    else v.
Proof.
  run. destruct (currentVersionIndex v <? _); cbn; [|done].
  by destruct (truthy _).
Qed.

Lemma navigate_latest (docs : list Document.t) (v : View) :
  navigate (Some docs) latest v =
    if Z.of_nat (length docs) =? 0 then v
    else
      let doc := at_index docs (Z.of_nat (length docs) - 1) in
      let v' := with_mode edit (with_cursor (Z.of_nat (length docs) - 1) v) in
      if truthy (content_of doc)
      then with_artifact (show_snapshot doc (artifact v)) v'
      else v'.
Proof.
  run. destruct (Z.of_nat (length docs) =? 0); cbn; [done|].
  by destruct (truthy _).
Qed.

Lemma navigate_toggle (docs : list Document.t) (v : View) :
  navigate (Some docs) toggle v = with_mode (flip (mode v)) v.
Proof. by run. Qed.

Lemma navigate_absent (type : VersionChange) (v : View) :
  navigate None type v = v.
Proof. by run. Qed.

Lemma navigate_in_range (docs : list Document.t) (type : VersionChange)
    (v : View) :
  in_range docs v → in_range docs (navigate (Some docs) type v).
Proof.
  unfold in_range. intros Hv. destruct type.
  - rewrite navigate_next.
    destruct (Z.ltb_spec (currentVersionIndex v) (Z.of_nat (length docs) - 1));
      [|done].
    cbn zeta. destruct (truthy _); cbn; lia.
  - rewrite navigate_prev.
    destruct (Z.ltb_spec 0 (currentVersionIndex v)); [|done].
    cbn zeta. destruct (truthy _); cbn; lia.
  - rewrite navigate_toggle. cbn. lia.
  - rewrite navigate_latest.
    destruct (Z.eqb_spec (Z.of_nat (length docs)) 0); [done|].
    cbn zeta. destruct (truthy _); cbn; lia.
Qed.

Lemma navigate_all_in_range (docs : list Document.t)
    (types : list VersionChange) (v : View) :
  in_range docs v → in_range docs (navigate_all (Some docs) types v).
Proof.
  revert v. induction types as [|type types IH]; intros v Hv; [done|].
  apply IH. by apply navigate_in_range.
Qed.

Lemma documentsEffect_in_range (docs : list Document.t) (w : World) :
  docs ≠ [] →
  in_range docs (view (exec (documentsEffect (Some docs)) w)).
Proof.
  intros Hd. destruct docs as [|d docs] using rev_ind; [done|].
  unfold in_range. run. rewrite last_snoc, length_app. cbn.
  destruct (Z.ltb_spec 0 (Z.of_nat (length docs + 1))); [|lia].
  cbn. lia.
Qed.

(** ** The version cursor *)

(** The worked example of the specification: three snapshots, the cursor on
    the last one. *)
Example prev_from_current :
  let v1 := navigate (Some abc) prev (sample_view "doc-1" (Some "c") idle edit 2) in
  let v2 := navigate (Some abc) prev v1 in
  let v3 := navigate (Some abc) prev v2 in
  (currentVersionIndex v1, content (artifact v1)) = (1, Some "b")
  ∧ (currentVersionIndex v2, content (artifact v2)) = (0, Some "a")
  ∧ v3 = v2.
Proof. by vm_compute. Qed.

(** C1.  With a non-empty fetched list, the effect on the list puts the
    cursor on the last index, and from a cursor within [0, length-1] every
    sequence of prev, next, toggle and latest commands leaves it within
    [0, length-1]; prev at cursor 0 and next at cursor length-1 leave the
    whole state as it was. *)
Theorem cursor_stays_in_range (docs : list Document.t) :
  docs ≠ [] →
  (∀ w, in_range docs (view (exec (documentsEffect (Some docs)) w)))
  ∧ (∀ types v, in_range docs v →
       in_range docs (navigate_all (Some docs) types v))
  ∧ (∀ v, currentVersionIndex v = 0 → navigate (Some docs) prev v = v)
  ∧ (∀ v, currentVersionIndex v = Z.of_nat (length docs) - 1 →
       navigate (Some docs) next v = v).
Proof.
  intros Hd. split; [|split; [|split]].
  - intros w. by apply documentsEffect_in_range.
  - intros types v. apply navigate_all_in_range.
  - intros v Hv. rewrite navigate_prev, Hv. done.
  - intros v Hv. rewrite navigate_next, Hv, Z.ltb_irrefl. done.
Qed.

Lemma cursor_stays_in_range_witness :
  abc ≠ []
  ∧ in_range abc
      (navigate_all (Some abc) [prev; prev; prev; next; toggle; latest; next]
         (view (exec (documentsEffect (Some abc))
                  (world_of (sample_view "doc-1" None idle edit (-1)))))).
Proof.
  split; [done|].
  pose proof (cursor_stays_in_range abc ltac:(done)) as (Hfx & Hnav & _).
  apply Hnav, Hfx.
Defined.

(** X14.  From the panel as it mounts, whatever lists arrive and whatever is
    clicked, the cursor points into the list whenever the list is not
    empty. *)
Lemma cursor_in_range_reachable (a : UIArtifact) (events : list Event)
    (docs : list Document.t) :
  fst (foldl step (mounted a) events) = Some docs → docs ≠ [] →
  in_range docs (snd (foldl step (mounted a) events)).
Proof.
  revert docs. induction events as [|e events IH] using rev_ind;
    intros docs; [done|].
  rewrite foldl_snoc. destruct e as [documents|type]; cbn.
  - intros -> Hd. by apply documentsEffect_in_range.
  - intros Hs Hd. rewrite Hs. apply navigate_in_range. by apply IH.
Qed.

Lemma documentsEffect_is_current (docs : list Document.t) (w : World) :
  isCurrentVersion (Some docs) (view (exec (documentsEffect (Some docs)) w))
  = true.
Proof.
  unfold isCurrentVersion.
  destruct (Z.ltb_spec 0 (Z.of_nat (length docs))) as [Hlen|Hlen]; [|done].
  destruct docs as [|d docs _] using rev_ind; [done|].
  run. rewrite last_snoc, length_app. cbn.
  destruct (Z.ltb_spec 0 (Z.of_nat (length docs + 1))); [|lia].
  cbn. apply Z.eqb_refl.
Qed.

(** ** The latest command *)




(** ** Snapshots without content *)

Lemma exec_prev_no_content (docs : list Document.t) (v : View) :
  (0 <? currentVersionIndex v) = true →
  truthy (content_of (at_index docs (currentVersionIndex v - 1))) = false →
  exec (handleVersionChange (Some docs) v prev) (world_of v) =
    {| view := with_cursor (currentVersionIndex v - 1) v;
       console :=
         [Log "[ARTIFACT] Version change requested:";
          Log "[ARTIFACT] Moving to previous version:";
          Error "[ARTIFACT] Selected document has no content"];
       requests := []; timer := None |}.
Proof. intros Hg Ht. run. rewrite Hg. cbn. by rewrite Ht. Qed.

Lemma exec_next_no_content (docs : list Document.t) (v : View) :
  (currentVersionIndex v <? Z.of_nat (length docs) - 1) = true →
  truthy (content_of (at_index docs (currentVersionIndex v + 1))) = false →
  exec (handleVersionChange (Some docs) v next) (world_of v) =
    {| view := with_cursor (currentVersionIndex v + 1) v;
       console :=
         [Log "[ARTIFACT] Version change requested:";
          Log "[ARTIFACT] Moving to next version:";
          Error "[ARTIFACT] Selected document has no content"];
       requests := []; timer := None |}.
Proof. intros Hg Ht. run. rewrite Hg. cbn. by rewrite Ht. Qed.

Lemma exec_latest_no_content (docs : list Document.t) (v : View) :
  (Z.of_nat (length docs) =? 0) = false →
  truthy (content_of (at_index docs (Z.of_nat (length docs) - 1))) = false →
  exec (handleVersionChange (Some docs) v latest) (world_of v) =
    {| view := with_mode edit (with_cursor (Z.of_nat (length docs) - 1) v);
       console :=
         [Log "[ARTIFACT] Version change requested:";
          Log "[ARTIFACT] Setting to latest version:";
          Error "[ARTIFACT] Latest document has no content"];
       requests := []; timer := None |}.
Proof. intros Hg Ht. run. rewrite Hg. cbn. by rewrite Ht. Qed.

(** C6.  A prev or next command that moves onto a snapshot whose content is
    missing (null) returns normally: the cursor is on the new index, the
    artifact (so the displayed content) and the rest of the state are as
    before, and the failure is one [console.error]. *)
Theorem missing_content_is_not_fatal (docs : list Document.t) (v : View)
    (type : VersionChange) (i : Z) (d : Document.t) :
  type = prev ∨ type = next →
  destination docs v type = Some i →
  at_index docs i = Some d →
  Document.content d = None →
  let w' := exec (handleVersionChange (Some docs) v type) (world_of v) in
  view w' = with_cursor i v
  ∧ currentVersionIndex (view w') = i
  ∧ artifact (view w') = artifact v
  ∧ last (console w') = Some (Error "[ARTIFACT] Selected document has no content").
Proof.
  intros Ht Hi Hd Hc w'. subst w'.
  assert (truthy (content_of (at_index docs i)) = false) as Hno
    by (by rewrite Hd; cbn; rewrite Hc).
  destruct Ht as [-> | ->]; cbn in Hi.
  - destruct (0 <? currentVersionIndex v) eqn:Hg; [|done].
    injection Hi as <-. by rewrite exec_prev_no_content.
  - destruct (currentVersionIndex v <? _) eqn:Hg; [|done].
    injection Hi as <-. by rewrite exec_next_no_content.
Qed.

Lemma missing_content_is_not_fatal_witness :
  currentVersionIndex
    (navigate (Some [snapshot (Some "a"); snapshot None; snapshot (Some "c")])
       prev (sample_view "doc-1" (Some "c") idle edit 2)) = 1
  ∧ content
      (artifact
         (navigate (Some [snapshot (Some "a"); snapshot None; snapshot (Some "c")])
            prev (sample_view "doc-1" (Some "c") idle edit 2))) = Some "c".
Proof.
  pose proof (missing_content_is_not_fatal
    [snapshot (Some "a"); snapshot None; snapshot (Some "c")]
    (sample_view "doc-1" (Some "c") idle edit 2) prev 1 (snapshot None)
    (or_introl eq_refl) eq_refl eq_refl eq_refl) as (_ & Hcur & Hart & _).
  split; [exact Hcur|]. unfold navigate. by rewrite Hart.
Defined.

(** ** Empty content *)

Lemma at_index_insert {A : Type} (l : list A) (i : Z) (x y : A) :
  at_index l i = Some x → at_index (<[Z.to_nat i := y]> l) i = Some y.
Proof.
  unfold at_index. destruct (i <? 0); [done|]. intros Hx.
  apply list_lookup_insert_eq. by eapply lookup_lt_Some.
Qed.

(** C9.  A prev, next or latest command that moves onto a snapshot whose
    content is the empty string does what it does when that snapshot's
    content is null: the cursor is on the new index (and for latest the mode
    is edit), the artifact, so its content and status, is as before, and the
    state and the console are those of the same command on the list with
    that snapshot's content null. *)
Theorem empty_content_as_missing (docs : list Document.t) (v : View)
    (type : VersionChange) (i : Z) (d : Document.t) :
  destination docs v type = Some i →
  at_index docs i = Some d →
  Document.content d = Some "" →
  let w' := exec (handleVersionChange (Some docs) v type) (world_of v) in
  currentVersionIndex (view w') = i
  ∧ (type = latest → mode (view w') = edit)
  ∧ artifact (view w') = artifact v
  ∧ w' = exec (handleVersionChange
                 (Some (<[Z.to_nat i := without_content d]> docs)) v type)
              (world_of v).
Proof.
  intros Hi Hd Hc w'. subst w'.
  assert (truthy (content_of (at_index docs i)) = false) as Hno
    by (by rewrite Hd; cbn; rewrite Hc).
  assert (truthy (content_of
            (at_index (<[Z.to_nat i := without_content d]> docs) i)) = false)
    as Hno' by (by erewrite at_index_insert).
  destruct type; cbn in Hi.
  - destruct (currentVersionIndex v <? _) eqn:Hg; [|done].
    injection Hi as <-.
    rewrite !exec_next_no_content; rewrite ?length_insert; done.
  - destruct (0 <? currentVersionIndex v) eqn:Hg; [|done].
    injection Hi as <-.
    rewrite !exec_prev_no_content; done.
  - done.
  - destruct (Z.of_nat (length docs) =? 0) eqn:Hg; [done|].
    injection Hi as <-.
    rewrite !exec_latest_no_content; rewrite ?length_insert; done.
Qed.

Lemma empty_content_as_missing_witness :
  navigate (Some blank) latest draft_view
  = with_mode edit draft_view.
Proof.
  pose proof (empty_content_as_missing blank draft_view latest 0
                (snapshot (Some "")) eq_refl eq_refl eq_refl) as (_ & _ & _ & H).
  unfold navigate. rewrite H. reflexivity.
Defined.

(** ** The toggle command *)

(** C8 as stated fails: while the list is absent, toggle returns at the
    first guard and the mode stays edit. *)
Lemma toggle_without_documents :
  mode loading_view = edit
  ∧ mode (navigate None toggle loading_view) = edit
  ∧ mode (navigate None toggle loading_view) ≠ flip (mode loading_view).
Proof. by vm_compute. Qed.

(** C8, amended.  With a fetched list (empty or not) toggle flips the mode
    between edit and diff and leaves the cursor, the artifact and the rest of
    the state as they were; while the list is absent toggle changes
    nothing. *)
Theorem toggle_spec (v : View) :
  (∀ docs,
     let v' := navigate (Some docs) toggle v in
     mode v' = flip (mode v)
     ∧ currentVersionIndex v' = currentVersionIndex v
     ∧ artifact v' = artifact v
     ∧ document v' = document v
     ∧ isContentDirty v' = isContentDirty v)
  ∧ navigate None toggle v = v.
Proof. split; [intros docs; by rewrite navigate_toggle | done]. Qed.

(** ** Reading a snapshot *)

(** C10.  [getDocumentContentById] returns a string for every integer index:
    the empty string when the list is absent, when the index is below zero
    or not below the length, and when the snapshot at the index has null
    content; the snapshot's content otherwise. *)
Theorem getDocumentContentById_total (index : Z) :
  getDocumentContentById None index = ""
  ∧ (∀ docs, index < 0 ∨ Z.of_nat (length docs) ≤ index →
       getDocumentContentById (Some docs) index = "")
  ∧ (∀ docs d, 0 ≤ index → docs !! Z.to_nat index = Some d →
       Document.content d = None →
       getDocumentContentById (Some docs) index = "")
  ∧ (∀ docs d c, 0 ≤ index → docs !! Z.to_nat index = Some d →
       Document.content d = Some c →
       getDocumentContentById (Some docs) index = c).
Proof.
  unfold getDocumentContentById, at_index. split; [done|].
  split; [|split].
  - intros docs [Hlt|Hge].
    + destruct (Z.ltb_spec index 0); [done|lia].
    + destruct (Z.ltb_spec index 0); [done|].
      rewrite (proj2 (lookup_ge_None docs (Z.to_nat index))); [done|lia].
  - intros docs d H0 Hd Hc.
    destruct (Z.ltb_spec index 0); [lia|]. by rewrite Hd, Hc.
  - intros docs d c H0 Hd Hc.
    destruct (Z.ltb_spec index 0); [lia|]. by rewrite Hd, Hc.
Qed.

Lemma getDocumentContentById_total_witness :
  getDocumentContentById (Some abc) (-1) = ""
  ∧ getDocumentContentById (Some abc) 3 = ""
  ∧ getDocumentContentById (Some [snapshot None]) 0 = ""
  ∧ getDocumentContentById (Some abc) 1 = "b".
Proof.
  destruct (getDocumentContentById_total (-1)) as (_ & Hlo & _).
  destruct (getDocumentContentById_total 3) as (_ & Hhi & _).
  destruct (getDocumentContentById_total 0) as (_ & _ & Hnull & _).
  destruct (getDocumentContentById_total 1) as (_ & _ & _ & Hc).
  split; [apply Hlo; by left|].
  split; [apply Hhi; by right|].
  split; [by apply (Hnull _ (snapshot None))|].
  by apply (Hc _ (snapshot (Some "b"))).
Defined.

(** ** The streaming safeguard *)

Lemma reconcile_spec (chatStatus : Chat.status) (v : View) :
  reconcile chatStatus v =
    if negb (chat_streaming chatStatus)
       && artifact_streaming (status (artifact v))
    then with_artifact (with_status idle (artifact v)) v
    else v.
Proof. run. by destruct (_ && _). Qed.

Lemma reconcile_idle (chatStatus : Chat.status) (v : View) :
  chatStatus ≠ Chat.streaming →
  status (artifact (reconcile chatStatus v)) = idle.
Proof.
  intros Hc. rewrite reconcile_spec.
  assert (chat_streaming chatStatus = false) as -> by (by destruct chatStatus).
  by destruct (status (artifact v)) eqn:Hs; cbn; rewrite ?Hs.
Qed.

(** C5.  When the chat's status is not streaming, the effect turns an
    artifact status of streaming into idle and touches nothing else, so
    after the effect the artifact's status is idle. *)
Theorem chat_stop_forces_idle (chatStatus : Chat.status) (v : View) :
  chatStatus ≠ Chat.streaming →
  (status (artifact v) = streaming →
     reconcile chatStatus v = with_artifact (with_status idle (artifact v)) v)
  ∧ status (artifact (reconcile chatStatus v)) = idle.
Proof.
  intros Hc. split; [|by apply reconcile_idle].
  intros Hs. rewrite reconcile_spec, Hs.
  by destruct chatStatus.
Qed.

Lemma chat_stop_forces_idle_witness :
  Chat.ready ≠ Chat.streaming
  ∧ status
      (artifact
         (reconcile Chat.ready (sample_view "doc-1" (Some "a") streaming edit 0)))
    = idle.
Proof.
  split; [done|].
  exact (proj2 (chat_stop_forces_idle Chat.ready
                  (sample_view "doc-1" (Some "a") streaming edit 0)
                  ltac:(done))).
Defined.

(** The effect does nothing in every other case, and a second run changes
    nothing: skipping it while its two dependencies are unchanged loses
    nothing. *)
Lemma reconcile_otherwise (chatStatus : Chat.status) (v : View) :
  chatStatus = Chat.streaming ∨ status (artifact v) = idle →
  reconcile chatStatus v = v.
Proof.
  rewrite reconcile_spec. intros [-> | ->]; [done|].
  by rewrite andb_false_r.
Qed.

Lemma reconcile_idempotent (chatStatus : Chat.status) (v : View) :
  reconcile chatStatus (reconcile chatStatus v) = reconcile chatStatus v.
Proof.
  rewrite (reconcile_spec chatStatus v).
  destruct (_ && _) eqn:Hg; rewrite reconcile_spec.
  - cbn. by rewrite andb_false_r.
  - by rewrite Hg.
Qed.

(** X13.  Along every sequence of chat status changes and artifact updates,
    each followed by the effect, the artifact is idle whenever the chat is
    not streaming. *)
Lemma never_stuck_streaming (signals : list Signal)
    (st : Chat.status * View) :
  signals ≠ [] →
  fst (foldl signal st signals) ≠ Chat.streaming →
  status (artifact (snd (foldl signal st signals))) = idle.
Proof.
  destruct signals as [|e signals _] using rev_ind; [done|]. intros _.
  rewrite foldl_snoc. destruct e as [s|updater]; cbn; intros Hc;
    by apply reconcile_idle.
Qed.

(** ** The persistence bridge *)

Lemma strict_neq_false (a : option string) (b : string) :
  strict_neq a b = false ↔ a = Some b.
Proof.
  destruct a as [a|]; cbn; [|done].
  destruct (String.eqb_spec a b); cbn; split; congruence.
Qed.

Lemma strict_neq_true (a : option string) (b : string) :
  strict_neq a b = true ↔ a ≠ Some b.
Proof.
  rewrite <-strict_neq_false. by destruct (strict_neq a b).
Qed.

Lemma valid_id (v : View) :
  documentId (artifact v) ≠ "" → documentId (artifact v) ≠ "init" →
  String.eqb (documentId (artifact v)) ""
  || String.eqb (documentId (artifact v)) "init" = false.
Proof.
  intros H1 H2.
  destruct (String.eqb_spec (documentId (artifact v)) ""); [done|].
  by destruct (String.eqb_spec (documentId (artifact v)) "init").
Qed.



Lemma writes_app (l k : list Request) :
  writes (l ++ k) = (writes l + writes k)%nat.
Proof. unfold writes. by rewrite filter_app, length_app. Qed.





(** C4.  When the update is answered with a response that is not ok, the
    callback returns the list it was given, so the cache keeps it; the state
    is untouched (the dirty flag is not cleared), the failure is one
    [console.error], and the only request sent is that one POST: no second
    attempt, no re-read. *)
Theorem failed_update_leaves_cache (v : View) (c : string) (net : Network)
    (docs : list Document.t) (d : Document.t) (w : World) :
  documentId (artifact v) ≠ "" → documentId (artifact v) ≠ "init" →
  last docs = Some d → Document.content d ≠ Some c →
  ok (postResponse net) = false →
  handleContentChange v c net (Some docs) w =
    (Some docs,
     {| view := view w;
        console :=
          console w
          ++ [Log "Handling content change:";
              Log "Content changed, sending update request";
              Error (String.append "Failed to update document: "
                       (body (postResponse net)))];
        requests :=
          requests w
          ++ [POST (document_url (documentId (artifact v)))
                (title (artifact v)) c (kind (artifact v))];
        timer := timer w |}).
Proof.
  intros H1 H2 Hl Hc Hp. run. rewrite valid_id by done. cbn.
  rewrite Hl. rewrite (proj2 (strict_neq_true _ _) Hc). cbn.
  rewrite Hp. cbn. by rewrite <-!app_assoc.
Qed.

Lemma failed_update_leaves_cache_witness :
  fst (handleContentChange editing_view "b" refusing
         (Some [snapshot (Some "a")]) (world_of editing_view))
  = Some [snapshot (Some "a")].
Proof.
  by rewrite (failed_update_leaves_cache editing_view "b" refusing
                [snapshot (Some "a")] (snapshot (Some "a"))
                (world_of editing_view)
                ltac:(done) ltac:(done) eq_refl ltac:(done) eq_refl).
Defined.



(** * Further properties of the panel *)

(** ** What navigation leaves alone and how commands compose *)

(** X1.  Whatever the list, the command and the state, [handleVersionChange]
    sends no request, leaves the timer, the selected snapshot and the dirty
    flag alone, and changes nothing of the artifact but its content and
    status. *)
Theorem navigation_frame (documents : option (list Document.t))
    (type : VersionChange) (v : View) :
  let w' := exec (handleVersionChange documents v type) (world_of v) in
  requests w' = [] ∧ timer w' = None
  ∧ document (view w') = document v
  ∧ isContentDirty (view w') = isContentDirty v
  ∧ title (artifact (view w')) = title (artifact v)
  ∧ documentId (artifact (view w')) = documentId (artifact v)
  ∧ kind (artifact (view w')) = kind (artifact v)
  ∧ isVisible (artifact (view w')) = isVisible (artifact v)
  ∧ boundingBox (artifact (view w')) = boundingBox (artifact v)
  ∧ language (artifact (view w')) = language (artifact v).
Proof.
  destruct documents as [docs|]; [|by run].
  destruct type; run.
  - destruct (currentVersionIndex v <? _); cbn; [|done].
    by destruct (truthy _).
  - destruct (0 <? currentVersionIndex v); cbn; [|done].
    by destruct (truthy _).
  - done.
  - destruct (Z.of_nat (length docs) =? 0); cbn; [done|].
    by destruct (truthy _).
Qed.

(** X2.  With a fetched list, two toggles in a row give back the state. *)
Theorem toggle_twice (docs : list Document.t) (v : View) :
  navigate (Some docs) toggle (navigate (Some docs) toggle v) = v.
Proof.
  rewrite !navigate_toggle. destruct v as [a m d i b]. by destruct m.
Qed.

Lemma truthy_or_empty (s : option string) (c : string) :
  s = Some c → c ≠ "" → truthy s = true ∧ or_empty s = c.
Proof.
  intros -> Hc. unfold truthy, or_empty.
  by destruct (String.eqb_spec c "").
Qed.

(** X3.  With the cursor inside the list, prev followed by next (when prev
    can move) and next followed by prev (when next can move) bring the
    cursor back; and when the snapshot under the cursor has non-empty
    content, prev followed by next leaves that content in the artifact. *)
Theorem back_and_forth (docs : list Document.t) (v : View) :
  in_range docs v →
  (0 < currentVersionIndex v →
     currentVersionIndex
       (navigate (Some docs) next (navigate (Some docs) prev v))
     = currentVersionIndex v
     ∧ ∀ c, content_of (at_index docs (currentVersionIndex v)) = Some c →
            c ≠ "" →
            content (artifact
              (navigate (Some docs) next (navigate (Some docs) prev v)))
            = Some c)
  ∧ (currentVersionIndex v < Z.of_nat (length docs) - 1 →
       currentVersionIndex
         (navigate (Some docs) prev (navigate (Some docs) next v))
       = currentVersionIndex v).
Proof.
  unfold in_range. intros Hr. split.
  - intros Hpos.
    assert (currentVersionIndex (navigate (Some docs) prev v)
            = currentVersionIndex v - 1) as Hprev.
    { rewrite navigate_prev.
      destruct (Z.ltb_spec 0 (currentVersionIndex v)); [|lia].
      cbn zeta. by destruct (truthy _). }
    rewrite (navigate_next docs (navigate (Some docs) prev v)), Hprev.
    destruct (Z.ltb_spec (currentVersionIndex v - 1)
                (Z.of_nat (length docs) - 1)); [|lia].
    replace (currentVersionIndex v - 1 + 1) with (currentVersionIndex v)
      by lia.
    cbn zeta. split.
    + by destruct (truthy _).
    + intros c Hc Hne.
      destruct (truthy_or_empty _ c Hc Hne) as [Ht Ho].
      rewrite Ht. unfold show_snapshot. cbn. by rewrite Ho.
  - intros Hlt.
    assert (currentVersionIndex (navigate (Some docs) next v)
            = currentVersionIndex v + 1) as Hnext.
    { rewrite navigate_next.
      destruct (Z.ltb_spec (currentVersionIndex v)
                  (Z.of_nat (length docs) - 1)); [|lia].
      cbn zeta. by destruct (truthy _). }
    rewrite (navigate_prev docs (navigate (Some docs) next v)), Hnext.
    destruct (Z.ltb_spec 0 (currentVersionIndex v + 1)); [|lia].
    replace (currentVersionIndex v + 1 - 1) with (currentVersionIndex v)
      by lia.
    cbn zeta. by destruct (truthy _).
Qed.

Lemma back_and_forth_witness :
  in_range abc (sample_view "doc-1" (Some "b") idle edit 1)
  ∧ currentVersionIndex
      (navigate (Some abc) next
         (navigate (Some abc) prev
            (sample_view "doc-1" (Some "b") idle edit 1))) = 1.
Proof.
  split; [by vm_compute|].
  exact (proj1 (proj1 (back_and_forth abc
                         (sample_view "doc-1" (Some "b") idle edit 1)
                         ltac:(by vm_compute))
                  eq_refl)).
Defined.

(** X4.  After latest the panel is on the current version, whatever the
    list; a second latest changes nothing more; and on a non-empty list
    whose last snapshot has non-empty content, that content is what the
    panel shows. *)
Theorem latest_is_current (documents : option (list Document.t))
    (v : View) :
  isCurrentVersion documents (navigate documents latest v) = true
  ∧ navigate documents latest (navigate documents latest v)
    = navigate documents latest v
  ∧ (∀ docs c, documents = Some docs →
       content_of (last docs) = Some c → c ≠ "" →
       displayedContent documents (navigate documents latest v) = Some c).
Proof.
  destruct documents as [docs|]; [|by rewrite !navigate_absent].
  assert (isCurrentVersion (Some docs) (navigate (Some docs) latest v) = true)
    as Hcur.
  { rewrite navigate_latest. unfold isCurrentVersion.
    destruct (Z.eqb_spec (Z.of_nat (length docs)) 0) as [H0|H0].
    - by rewrite H0.
    - destruct (0 <? Z.of_nat (length docs)); [|done].
      cbn zeta. destruct (truthy _); cbn; apply Z.eqb_refl. }
  split; [done|]. split.
  - rewrite (navigate_latest docs (navigate (Some docs) latest v)).
    rewrite (navigate_latest docs v).
    destruct (Z.of_nat (length docs) =? 0); [done|].
    cbn zeta. destruct (truthy _); [|by destruct v].
    destruct v as [a m d i b]. by destruct a.
  - intros docs' c [= <-] Hc Hne. unfold displayedContent. rewrite Hcur.
    assert (docs ≠ []) as Hd by (by intros ->).
    rewrite navigate_latest, at_index_last by done.
    destruct (Z.eqb_spec (Z.of_nat (length docs)) 0) as [H0|_].
    { destruct docs; [done|]. cbn in H0. lia. }
    destruct (truthy_or_empty _ c Hc Hne) as [Ht Ho].
    cbn zeta. rewrite Ht. unfold show_snapshot. cbn. by rewrite Ho.
Qed.

Lemma latest_is_current_witness :
  displayedContent (Some abc)
    (navigate (Some abc) latest (sample_view "doc-1" (Some "a") idle diff 0))
  = Some "c".
Proof.
  exact (proj2 (proj2 (latest_is_current (Some abc)
                         (sample_view "doc-1" (Some "a") idle diff 0)))
           abc "c" eq_refl eq_refl ltac:(done)).
Defined.

(** X5.  With the cursor inside the list, after a prev that moves the panel
    shows the content of the snapshot now under the cursor (the empty string
    when it is null), whatever the artifact holds. *)
Theorem prev_shows_snapshot (docs : list Document.t) (v : View) :
  in_range docs v → 0 < currentVersionIndex v →
  ∃ d, docs !! Z.to_nat (currentVersionIndex v - 1) = Some d
       ∧ displayedContent (Some docs) (navigate (Some docs) prev v)
         = Some (nullish_empty (Document.content d)).
Proof.
  unfold in_range. intros Hr Hpos.
  destruct (lookup_lt_is_Some_2 docs (Z.to_nat (currentVersionIndex v - 1)))
    as [d Hd]; [lia|].
  exists d. split; [done|].
  assert (currentVersionIndex (navigate (Some docs) prev v)
          = currentVersionIndex v - 1) as Hprev.
  { rewrite navigate_prev.
    destruct (Z.ltb_spec 0 (currentVersionIndex v)); [|lia].
    cbn zeta. by destruct (truthy _). }
  unfold displayedContent, isCurrentVersion. rewrite Hprev.
  destruct (Z.ltb_spec 0 (Z.of_nat (length docs))); [|lia].
  destruct (Z.eqb_spec (currentVersionIndex v - 1)
              (Z.of_nat (length docs) - 1)); [lia|].
  unfold getDocumentContentById, at_index.
  destruct (Z.ltb_spec (currentVersionIndex v - 1) 0); [lia|].
  by rewrite Hd.
Qed.

Lemma prev_shows_snapshot_witness :
  ∃ d, abc !! 1%nat = Some d
       ∧ displayedContent (Some abc)
           (navigate (Some abc) prev
              (sample_view "doc-1" (Some "c") idle edit 2))
         = Some (nullish_empty (Document.content d)).
Proof.
  exact (prev_shows_snapshot abc (sample_view "doc-1" (Some "c") idle edit 2)
           ltac:(by vm_compute) eq_refl).
Defined.

(** X6.  When a non-empty list arrives, the effect selects its last
    snapshot, puts the cursor on the last index, makes the panel show that
    snapshot's content (the empty string when it is null) as the current
    version, and leaves the mode, the dirty flag and the rest of the
    artifact alone; an empty or absent list changes nothing. *)
Theorem documents_loaded (docs : list Document.t) (v : View) :
  (docs ≠ [] →
     let v' := view (exec (documentsEffect (Some docs)) (world_of v)) in
     document v' = last docs
     ∧ currentVersionIndex v' = Z.of_nat (length docs) - 1
     ∧ isCurrentVersion (Some docs) v' = true
     ∧ displayedContent (Some docs) v'
       = Some (nullish_empty (content_of (last docs)))
     ∧ mode v' = mode v ∧ isContentDirty v' = isContentDirty v
     ∧ with_content (nullish_empty (content (artifact v))) (artifact v')
       = with_content (nullish_empty (content (artifact v))) (artifact v))
  ∧ view (exec (documentsEffect (Some [])) (world_of v)) = v
  ∧ view (exec (documentsEffect None) (world_of v)) = v.
Proof.
  split; [|by split].
  intros Hd v'. subst v'.
  unfold displayedContent. rewrite documentsEffect_is_current.
  destruct docs as [|d docs _] using rev_ind; [done|].
  run. rewrite last_snoc, length_app. cbn.
  destruct (Z.ltb_spec 0 (Z.of_nat (length docs + 1))); [|lia].
  cbn. by repeat split.
Qed.

Lemma documents_loaded_witness :
  displayedContent (Some abc)
    (view (exec (documentsEffect (Some abc))
             (world_of (sample_view "doc-1" None idle edit (-1)))))
  = Some "c".
Proof.
  exact (proj1 (proj2 (proj2 (proj2 (proj1 (documents_loaded abc
           (sample_view "doc-1" None idle edit (-1))) ltac:(done)))))).
Defined.

(** ** The other paths of the persistence bridge *)






(** ** Debounced edits *)





(** X11.  Once a list whose last snapshot has content [c] has arrived, a
    save of [c] itself is nothing at all: state, console, network and timer
    stay as they are, debounced or not. *)
Theorem save_of_loaded_content (docs : list Document.t) (d : Document.t)
    (c : string) (v : View) (debounce : bool) (net : Network)
    (cache : option (list Document.t)) (w : World) :
  last docs = Some d → Document.content d = Some c →
  saveContent (view (exec (documentsEffect (Some docs)) (world_of v)))
    c debounce net cache w
  = (cache, w).
Proof.
  intros Hl Hc.
  assert (document (view (exec (documentsEffect (Some docs)) (world_of v)))
          = Some d) as Hd.
  { destruct docs as [|d0 docs _] using rev_ind; [done|].
    rewrite last_snoc in Hl. injection Hl as ->.
    run. rewrite last_snoc, length_app. cbn.
    by destruct (Z.ltb_spec 0 (Z.of_nat (length docs + 1))); [|lia]. }
  unfold saveContent. rewrite Hd.
  by rewrite (proj2 (strict_neq_false _ _) Hc).
Qed.

Lemma save_of_loaded_content_witness :
  saveContent
    (view (exec (documentsEffect (Some abc)) (world_of loading_view)))
    "c" false accepting (Some abc) (world_of loading_view)
  = (Some abc, world_of loading_view).
Proof.
  exact (save_of_loaded_content abc (snapshot (Some "c")) "c" loading_view
           false accepting (Some abc) (world_of loading_view)
           eq_refl eq_refl).
Defined.

(** ** The streaming safeguard, continued *)

(** X12.  The safeguard effect leaves the mode, the selected snapshot, the
    cursor and the dirty flag alone and changes nothing of the artifact but
    its status; it never makes an artifact streaming (an artifact that is
    streaming after it was so before, with the chat streaming too); and a
    second run changes nothing more. *)
Theorem safeguard_frame (chatStatus : Chat.status) (v : View) :
  let v' := reconcile chatStatus v in
  mode v' = mode v ∧ document v' = document v
  ∧ currentVersionIndex v' = currentVersionIndex v
  ∧ isContentDirty v' = isContentDirty v
  ∧ with_status (status (artifact v)) (artifact v') = artifact v
  ∧ (status (artifact v') = streaming →
       status (artifact v) = streaming ∧ chatStatus = Chat.streaming)
  ∧ reconcile chatStatus v' = v'.
Proof.
  cbn zeta. rewrite !reconcile_spec.
  destruct v as [a m d i b]. destruct a as [t di k c vis st bb l].
  destruct chatStatus, st; cbn; by repeat split.
Qed.

Lemma never_stuck_streaming_witness :
  status
    (artifact
       (snd (foldl signal (Chat.ready, editing_view)
               [ChatStatus Chat.streaming;
                ArtifactUpdate (with_status streaming);
                ChatStatus Chat.ready]))) = idle.
Proof.
  exact (never_stuck_streaming
           [ChatStatus Chat.streaming;
            ArtifactUpdate (with_status streaming);
            ChatStatus Chat.ready]
           (Chat.ready, editing_view) ltac:(done) ltac:(done)).
Defined.

(** ** The panel over time *)

Lemma cursor_in_range_reachable_witness :
  in_range abc
    (snd (foldl step (mounted (sample_artifact "doc-1" None idle))
            [Click next; Fetched (Some []); Click prev; Fetched (Some abc);
             Click prev; Click toggle; Click next; Click next])).
Proof.
  exact (cursor_in_range_reachable (sample_artifact "doc-1" None idle)
           [Click next; Fetched (Some []); Click prev; Fetched (Some abc);
            Click prev; Click toggle; Click next; Click next]
           abc eq_refl ltac:(done)).
Defined.

(** ** The comparator of the memoised panel *)

(** X15.  The comparator answers true only when the deep equality of the
    previous message array and the next array's length answers true; as an
    array is never deeply equal to a number, it answers false for all props
    and the panel is never kept from rendering again. *)
Theorem memo_never_skips {Vote UIMessage : Type}
    (equal_votes : option (list Vote) → option (list Vote) → bool)
    (equal_array_number : list UIMessage → Z → bool)
    (prevProps nextProps : ArtifactProps Vote UIMessage) :
  (propsAreEqual equal_votes equal_array_number prevProps nextProps = true →
     equal_array_number (props_messages prevProps)
       (Z.of_nat (length (props_messages nextProps))) = true)
  ∧ ((∀ messages n, equal_array_number messages n = false) →
       propsAreEqual equal_votes equal_array_number prevProps nextProps
       = false).
Proof.
  unfold propsAreEqual. split.
  - destruct (equal_array_number _ _); [done|]. cbn.
    by repeat (match goal with |- context [if negb ?b then _ else _] =>
                 destruct b; cbn end).
  - intros ->. cbn.
    by repeat (match goal with |- context [if negb ?b then _ else _] =>
                 destruct b; cbn end).
Qed.

Lemma memo_never_skips_witness :
  propsAreEqual (λ _ _, true) (λ _ _, false) sample_props sample_props
  = false.
Proof.
  exact (proj2 (memo_never_skips (λ _ _, true) (λ _ _, false)
                  sample_props sample_props) (λ _ _, eq_refl)).
Defined.

(** ** The inline preview *)

(** X16.  Mapping a document kind twice is mapping it once; the result is
    never one of the two retired kinds; and the four artifact kinds map to
    themselves. *)
Theorem kind_mapping (kind : string) :
  Preview.mapDocumentKindToArtifactKind
    (Preview.mapDocumentKindToArtifactKind kind)
  = Preview.mapDocumentKindToArtifactKind kind
  ∧ Preview.mapDocumentKindToArtifactKind kind ≠ "code"
  ∧ Preview.mapDocumentKindToArtifactKind kind ≠ "github-code"
  ∧ ∀ k, Preview.mapDocumentKindToArtifactKind (Preview.kind_name k)
         = Preview.kind_name k.
Proof.
  split; [|split; [|split]]; [| | |by intros []];
    unfold Preview.mapDocumentKindToArtifactKind;
    destruct (String.eqb_spec kind "code") as [->|Hc]; cbn; try done;
    destruct (String.eqb_spec kind "github-code") as [->|Hg]; cbn; try done.
  destruct (String.eqb_spec kind "code"); [done|].
  by destruct (String.eqb_spec kind "github-code").
Qed.


(** X18.  The preview has no document to show exactly when nothing was
    fetched, the artifact is idle and its content is null or empty.  A
    fetched row is shown as it is; a row made up from the artifact carries
    the artifact's id and title, a kind the mapping leaves alone and a
    content that is never null: the string "null" when the artifact streams
    with null content. *)
Theorem preview_document (previewDocument : option Preview.DocumentRow.t)
    (a : UIArtifact) (now : string) :
  (Preview.document previewDocument a now = None ↔
     previewDocument = None ∧ status a = idle
     ∧ (content a = None ∨ content a = Some ""))
  ∧ (∀ d, previewDocument = Some d →
       Preview.document previewDocument a now = Some d)
  ∧ (∀ d, previewDocument = None →
       Preview.document previewDocument a now = Some d →
       Preview.DocumentRow.content d ≠ None
       ∧ Preview.DocumentRow.id d = documentId a
       ∧ Preview.DocumentRow.title d = title a
       ∧ Preview.mapDocumentKindToArtifactKind (Preview.DocumentRow.kind d)
         = Preview.DocumentRow.kind d)
  ∧ (previewDocument = None → status a = streaming → content a = None →
       Preview.document previewDocument a now ≫= Preview.DocumentRow.content
       = Some "null").
Proof.
  unfold Preview.document. split; [|split; [|split]].
  - destruct previewDocument as [d|]; [split; [done|by intros [? _]]|].
    destruct (status a); cbn; [split; [done|by intros (_ & ? & _)]|].
    destruct (content a) as [c|]; cbn; [|by split; auto].
    destruct (String.eqb_spec c "") as [->|Hc]; cbn.
    + by split; auto.
    + split; [done|]. intros (_ & _ & [H|H]); congruence.
  - by intros d ->.
  - intros d -> Hd.
    destruct (_ || _); [|done]. injection Hd as <-. cbn.
    repeat split; [done|]. by destruct (kind a).
  - intros -> -> ->. done.
Qed.

Lemma preview_document_witness :
  Preview.document None (sample_artifact "doc-1" None streaming) "now"
    ≫= Preview.DocumentRow.content
  = Some "null".
Proof.
  exact (proj2 (proj2 (proj2 (preview_document None
           (sample_artifact "doc-1" None streaming) "now")))
           eq_refl eq_refl eq_refl).
Defined.

(** ** The route guard *)

(** X19.  For a path that starts with a slash, as every URL path does: a
    visitor who is not signed in is let through exactly on the register,
    login and landing pages and sent to /landing everywhere else; a signed-in
    user is let through exactly on the other pages and sent to / from those
    three. *)
Theorem access_table (pathname : string) :
  String.prefix "/" pathname = true →
  (Auth.authorized false pathname = Auth.Allow ↔ Auth.public pathname = true)
  ∧ (Auth.public pathname = false →
       Auth.authorized false pathname = Auth.Redirect "/landing")
  ∧ (Auth.authorized true pathname = Auth.Allow ↔
       Auth.public pathname = false)
  ∧ (Auth.public pathname = true →
       Auth.authorized true pathname = Auth.Redirect "/").
Proof.
  intros Hslash. unfold Auth.authorized, Auth.public. rewrite Hslash.
  destruct (String.prefix "/register" pathname),
    (String.prefix "/login" pathname), (String.prefix "/landing" pathname);
    cbn; by repeat split.
Qed.

Lemma access_table_witness :
  Auth.authorized false "/chat/42" = Auth.Redirect "/landing"
  ∧ Auth.authorized true "/login" = Auth.Redirect "/".
Proof.
  destruct (access_table "/chat/42" eq_refl) as (_ & Hanon & _).
  destruct (access_table "/login" eq_refl) as (_ & _ & _ & Huser).
  split; [by apply Hanon | by apply Huser].
Defined.

(** X20.  Redirects settle: the page a visitor is sent to lets the same
    visitor through, for every path. *)
Theorem redirects_settle (isLoggedIn : bool) (pathname target : string) :
  Auth.authorized isLoggedIn pathname = Auth.Redirect target →
  Auth.authorized isLoggedIn target = Auth.Allow.
Proof.
  unfold Auth.authorized at 1.
  destruct isLoggedIn, (String.prefix "/" pathname),
    (String.prefix "/register" pathname), (String.prefix "/login" pathname),
    (String.prefix "/landing" pathname); cbn; intros H;
    try discriminate H; by injection H as <-.
Qed.

Lemma redirects_settle_witness :
  Auth.authorized false "/landing" = Auth.Allow.
Proof.
  exact (redirects_settle false "/chat/42" "/landing" eq_refl).
Defined.

(** ** The image editing tool *)

Lemma prefix_append (s t : string) : String.prefix s (String.append s t) = true.
Proof.
  induction s as [|a s IH]; cbn; [by destruct t|].
  by destruct (Ascii.ascii_dec a a).
Qed.

Lemma prefix_same (s : string) : String.prefix s s = true.
Proof.
  induction s as [|a s IH]; cbn; [done|].
  by destruct (Ascii.ascii_dec a a).
Qed.

(** X21.  When [execute] returns a result, the user was signed in, the edit
    and the save both succeeded in that order, and the result echoes the
    input: the id is the generated one, the original URL, the prompt (as
    given, not as sent to the model), the edit type, the flag and the
    context are the input's, and the edited URL is the one the save gave.
    The prompt sent to the model starts with the given prompt and is the
    given prompt when there is no context.  The stream, when it can be
    written, got exactly one event, the result itself. *)
Theorem edit_success (env : EditImage.Env) (input : EditImage.Input.t)
    (out : EditImage.Output.t) (calls : list EditImage.Call) :
  EditImage.execute env input = (EditImage.Ok out, calls) →
  truthy (EditImage.sessionUserId env) = true
  ∧ out = EditImage.Output.mk (EditImage.generateUUID env)
            (EditImage.Input.imageUrl input)
            (EditImage.Output.editedImageUrl out)
            (EditImage.Input.prompt input)
            (EditImage.Input.editType input)
            (EditImage.Input.preserveOriginal input)
            (EditImage.Input.context input)
  ∧ ∃ sent edited,
      String.prefix (EditImage.Input.prompt input) sent = true
      ∧ (truthy (EditImage.Input.context input) = false →
           sent = EditImage.Input.prompt input)
      ∧ EditImage.editImageWithGemini env (EditImage.Input.imageUrl input)
          sent (EditImage.Input.editType input)
          (EditImage.Input.preserveOriginal input)
        = EditImage.Ok edited
      ∧ EditImage.saveImageToBlob env edited
          (nullish_empty (EditImage.sessionUserId env)) "edited"
        = EditImage.Ok (EditImage.Output.editedImageUrl out)
      ∧ calls
        = ([EditImage.CallGemini (EditImage.Input.imageUrl input) sent
              (EditImage.Input.editType input)
              (EditImage.Input.preserveOriginal input);
            EditImage.CallSaveImageToBlob edited
              (nullish_empty (EditImage.sessionUserId env)) "edited"]
           ++ match EditImage.write env with
              | Some _ => [EditImage.CallStreamWrite out]
              | None => []
              end)%list.
Proof.
  unfold EditImage.execute.
  destruct (truthy (EditImage.sessionUserId env)); cbn [negb]; [|done].
  cbn zeta.
  match goal with
  | |- context [EditImage.editImageWithGemini env _ ?s _ _] => set (sent := s)
  end.
  assert (String.prefix (EditImage.Input.prompt input) sent = true
          ∧ (truthy (EditImage.Input.context input) = false →
               sent = EditImage.Input.prompt input)) as [Hpre Hsame].
  { subst sent. destruct (truthy (EditImage.Input.context input)).
    - split; [apply prefix_append | done].
    - split; [apply prefix_same | done]. }
  destruct (EditImage.editImageWithGemini env _ sent _ _) as [edited|e] eqn:Hg;
    [|done].
  destruct (EditImage.saveImageToBlob env edited _ _) as [url|e] eqn:Hs;
    [|done].
  destruct (EditImage.write env) as [write|] eqn:Hw.
  - destruct (write _) as [[]|e]; [|done]. intros [= <- <-].
    split; [done|]. split; [done|]. by exists sent, edited.
  - intros [= <- <-].
    split; [done|]. split; [done|]. by exists sent, edited.
Qed.

Lemma edit_success_witness :
  truthy (EditImage.sessionUserId signed_in) = true
  ∧ EditImage.Output.prompt
      (EditImage.Output.mk "uuid-1" "https://img.example/cat.png"
         "https://blob.example/edited.png" "add a hat" EditImage.add true
         (Some "a tabby cat"))
    = "add a hat".
Proof.
  destruct (edit_success signed_in sample_input
              (EditImage.Output.mk "uuid-1" "https://img.example/cat.png"
                 "https://blob.example/edited.png" "add a hat" EditImage.add
                 true (Some "a tabby cat"))
              _ eq_refl) as (Hin & _ & _).
  by split.
Defined.

(** X22.  When [execute] throws, either the user was not signed in, the
    message says so and nothing at all was called, or the user was signed
    in, the message is that of the failure behind it prefixed by "Failed to
    edit image: " (or "Unknown error" for a thrown value that is no Error),
    the last call is the [console.error], and the stream was written only
    if it is the write itself that threw. *)
Theorem edit_failure (env : EditImage.Env) (input : EditImage.Input.t)
    (e : EditImage.Thrown) (calls : list EditImage.Call) :
  EditImage.execute env input = (EditImage.Throw e, calls) →
  (truthy (EditImage.sessionUserId env) = false
   ∧ e = EditImage.ErrorObject "User must be authenticated to edit images"
   ∧ calls = [])
  ∨ (truthy (EditImage.sessionUserId env) = true
     ∧ ∃ cause,
         e = EditImage.failed cause
         ∧ last calls = Some (EditImage.CallConsoleError "Error editing image:")
         ∧ ∀ out, EditImage.CallStreamWrite out ∈ calls →
             ∃ write, EditImage.write env = Some write
                      ∧ write out = EditImage.Throw cause).
Proof.
  unfold EditImage.execute.
  destruct (truthy (EditImage.sessionUserId env)); cbn;
    [|intros [= <- <-]; by left].
  intros H. right. split; [done|]. revert H.
  destruct (EditImage.editImageWithGemini env _ _ _ _) as [edited|e0].
  2:{ intros [= <- <-]. exists e0. split; [done|]. split; [done|].
      intros out Hin. repeat (apply elem_of_cons in Hin as [Hin|Hin];
                                [discriminate Hin|]).
      by apply elem_of_nil in Hin. }
  destruct (EditImage.saveImageToBlob env edited _ _) as [url|e0].
  2:{ intros [= <- <-]. exists e0. split; [done|]. split; [done|].
      intros out Hin. repeat (apply elem_of_cons in Hin as [Hin|Hin];
                                [discriminate Hin|]).
      by apply elem_of_nil in Hin. }
  destruct (EditImage.write env) as [write|]; [|done].
  destruct (write _) as [[]|e0] eqn:Hw; [done|].
  intros [= <- <-]. exists e0. split; [done|]. split; [done|].
  intros out Hin. exists write. split; [done|].
  repeat (apply elem_of_cons in Hin as [Hin|Hin];
            [try discriminate Hin|]).
  - by injection Hin as ->.
  - by apply elem_of_nil in Hin.
Qed.

Lemma edit_failure_witness :
  EditImage.execute signed_out sample_input
  = (EditImage.Throw
       (EditImage.ErrorObject "User must be authenticated to edit images"),
     []).
Proof.
  destruct (edit_failure signed_out sample_input _ _ eq_refl)
    as [(_ & _ & _)|(Hin & _)]; [reflexivity | discriminate Hin].
Defined.

(** ** Moving onto a snapshot with content *)

(** X23.  A prev, next or latest command that moves the cursor onto a
    snapshot with non-empty content leaves the cursor on that snapshot and
    makes the panel show exactly that content, with that content in the
    artifact and the artifact idle. *)
Theorem moving_shows_content (docs : list Document.t) (v : View)
    (type : VersionChange) (i : Z) (d : Document.t) (c : string) :
  destination docs v type = Some i →
  at_index docs i = Some d →
  Document.content d = Some c → c ≠ "" →
  let v' := navigate (Some docs) type v in
  currentVersionIndex v' = i
  ∧ displayedContent (Some docs) v' = Some c
  ∧ content (artifact v') = Some c
  ∧ status (artifact v') = idle.
Proof.
  intros Hi Hd Hc Hne v'.
  assert (content_of (at_index docs i) = Some c) as Hco
    by (by rewrite Hd; cbn).
  destruct (truthy_or_empty _ c Hco Hne) as [Ht Ho].
  assert (v' = with_artifact (show_snapshot (at_index docs i) (artifact v))
                 (match type with
                  | latest => with_mode edit (with_cursor i v)
                  | _ => with_cursor i v
                  end)) as ->.
  { subst v'. destruct type; cbn in Hi.
    - rewrite navigate_next.
      destruct (currentVersionIndex v <? _); [|done]. injection Hi as <-.
      cbn zeta. by rewrite Ht.
    - rewrite navigate_prev.
      destruct (0 <? currentVersionIndex v); [|done]. injection Hi as <-.
      cbn zeta. by rewrite Ht.
    - done.
    - rewrite navigate_latest.
      destruct (Z.of_nat (length docs) =? 0); [done|]. injection Hi as <-.
      cbn zeta. by rewrite Ht. }
  assert (currentVersionIndex
            (with_artifact (show_snapshot (at_index docs i) (artifact v))
               match type with
               | latest => with_mode edit (with_cursor i v)
               | _ => with_cursor i v
               end) = i) as Hcur by (by destruct type).
  assert (content
            (artifact
               (with_artifact (show_snapshot (at_index docs i) (artifact v))
                  match type with
                  | latest => with_mode edit (with_cursor i v)
                  | _ => with_cursor i v
                  end)) = Some c) as Hcon
    by (unfold show_snapshot; cbn; by rewrite Ho).
  split; [done|]. split; [|by split].
  unfold displayedContent, isCurrentVersion. rewrite Hcur, Hcon.
  destruct (0 <? Z.of_nat (length docs)); [|done].
  destruct (i =? Z.of_nat (length docs) - 1); [done|].
  unfold getDocumentContentById. by rewrite Hd, Hc.
Qed.

Lemma moving_shows_content_witness :
  displayedContent (Some abc)
    (navigate (Some abc) prev (sample_view "doc-1" (Some "c") idle edit 2))
  = Some "b".
Proof.
  exact (proj1 (proj2 (moving_shows_content abc
           (sample_view "doc-1" (Some "c") idle edit 2) prev 1
           (snapshot (Some "b")) "b" eq_refl eq_refl eq_refl ltac:(done)))).
Defined.
